(** * Iris ML API: the request pipeline of [main.py]

    A shallow embedding of the FastAPI service of [src/main.py]: the
    [IrisInput] schema, the three handlers [root], [predict] and [metrics],
    the two Prometheus metrics they touch, and the dispatch of a request to
    its handler.

    What the source imports and does not define is kept abstract:
    - the estimator read from [model.joblib] is a value of [Model.t], a
      record of the three operations the handler applies to it;
    - [time.time()] reads a wall clock that is part of the world;
    - [generate_latest] is a function of the registry content. *)

From Stdlib Require Import ZArith NArith List String Floats Lia.
From stdpp Require Import base gmap strings list pretty.

Set Warnings "-inexact-float,-register-all".
Local Open Scope string_scope.
Local Open Scope list_scope.

(** ** Python outcomes: a value or a raised exception *)

Module Py.

(** An instance of Python's [Exception] class, as the handler sees it: the
    name of its class and the text [str(e)] gives. *)
Record Exception := mkException { exc_class : string; exc_str : string }.

Definition str (e : Exception) : string := exc_str e.

Inductive Outcome (E A : Type) : Type :=
| Return (a : A)
| Raise (e : E).
Arguments Return {E A} a.
Arguments Raise {E A} e.

Definition bind {E A B} (o : Outcome E A) (k : A -> Outcome E B) : Outcome E B :=
  match o with
  | Return a => k a
  | Raise e => Raise e
  end.

End Py.
Export Py.

(** ** prometheus_client: the two metric kinds the service declares *)

Module Prometheus.

(** A [Counter] without labels: the number of [inc()] calls so far. *)
Definition Counter := N.

Definition inc (c : Counter) : Counter := (c + 1)%N.

(** A [Histogram] without labels: the samples given to [observe], oldest
    first.  Its exposed [_count] is the number of samples. *)
Definition Histogram := list float.

Definition observe (amount : float) (h : Histogram) : Histogram := h ++ [amount].

Definition count (h : Histogram) : nat := length h.

Record Registry := mkRegistry {
  api_requests_total : Counter;
  api_request_latency_seconds : Histogram
}.

(** Modelled from the spec: the constant [CONTENT_TYPE_LATEST] of
    prometheus_client is imported, not defined, by [main.py]; the spec and
    the docstring of [metrics] give its value. *)
Definition CONTENT_TYPE_LATEST : string := "text/plain; version=0.0.4; charset=utf-8".

End Prometheus.

(** ** The estimator behind [model]

    [int(model.predict(features)[0])] applies three operations, each of which
    is decided by the unpickled object and each of which may raise. *)

Module Model.

Record t := mk {
  Output : Type;
  Item : Type;
  predict : list (list float) -> Outcome Py.Exception Output;
  getitem : Output -> Z -> Outcome Py.Exception Item;
  int : Item -> Outcome Py.Exception Z
}.

(** The label of the first row, [int(m.predict(features)[0])]. *)
Definition first_label (m : t) (features : list (list float)) : Outcome Py.Exception Z :=
  Py.bind (predict m features) (fun out =>
  Py.bind (getitem m out 0%Z) (fun item =>
  int m item)).

End Model.

(** ** The world a request runs in *)

Record World := mkWorld {
  model : Model.t;
  REQUEST_COUNT : Prometheus.Counter;
  REQUEST_LATENCY : Prometheus.Histogram;
  wall_clock : nat -> float;
  clock_reads : nat
}.

Definition REGISTRY (w : World) : Prometheus.Registry :=
  Prometheus.mkRegistry (REQUEST_COUNT w) (REQUEST_LATENCY w).

(** Module start: [model = joblib.load("model.joblib")], then the two metrics
    are created empty.  A load that raises ends the process. *)
Definition startup (load : Outcome Py.Exception Model.t) (clock : nat -> float)
  : Outcome Py.Exception World :=
  Py.bind load (fun m =>
  Return {| model := m; REQUEST_COUNT := 0%N; REQUEST_LATENCY := [];
            wall_clock := clock; clock_reads := 0 |}).

(** ** Handler computations: world passing with exceptions *)

Definition M (E A : Type) : Type := World -> Outcome E A * World.

Definition ret {E A} (a : A) : M E A := fun w => (Return a, w).

Definition raise {E A} (e : E) : M E A := fun w => (Raise e, w).

Definition lift {E A} (o : Outcome E A) : M E A := fun w => (o, w).

Definition mbindM {E A B} (m : M E A) (k : A -> M E B) : M E B :=
  fun w =>
    match m w with
    | (Return a, w') => k a w'
    | (Raise e, w') => (Raise e, w')
    end.

#[global] Instance M_ret {E} : MRet (M E) := fun A a => ret a.
#[global] Instance M_bind {E} : MBind (M E) := fun A B k m => mbindM m k.

(** [try: body / except Exception as e: handler(e)] *)
Definition try_except {E E' A} (body : M E A) (handler : E -> M E' A) : M E' A :=
  fun w =>
    match body w with
    | (Return a, w') => (Return a, w')
    | (Raise e, w') => handler e w'
    end.

(** [try: body / finally: cleanup]: the cleanup runs on every exit of the
    body; an exception of the cleanup replaces the body's outcome. *)
Definition try_finally {E A} (body : M E A) (cleanup : M E unit) : M E A :=
  fun w =>
    let '(o, w') := body w in
    match cleanup w' with
    | (Return _, w'') => (o, w'')
    | (Raise e, w'') => (Raise e, w'')
    end.

(** [time.time()] *)
Definition time_time {E} : M E float :=
  fun w =>
    (Return (wall_clock w (clock_reads w)),
     {| model := model w; REQUEST_COUNT := REQUEST_COUNT w;
        REQUEST_LATENCY := REQUEST_LATENCY w;
        wall_clock := wall_clock w; clock_reads := S (clock_reads w) |}).

(** [REQUEST_COUNT.inc()] *)
Definition REQUEST_COUNT_inc {E} : M E unit :=
  fun w =>
    (Return tt,
     {| model := model w; REQUEST_COUNT := Prometheus.inc (REQUEST_COUNT w);
        REQUEST_LATENCY := REQUEST_LATENCY w;
        wall_clock := wall_clock w; clock_reads := clock_reads w |}).

(** [REQUEST_LATENCY.observe(amount)] *)
Definition REQUEST_LATENCY_observe {E} (amount : float) : M E unit :=
  fun w =>
    (Return tt,
     {| model := model w; REQUEST_COUNT := REQUEST_COUNT w;
        REQUEST_LATENCY := Prometheus.observe amount (REQUEST_LATENCY w);
        wall_clock := wall_clock w; clock_reads := clock_reads w |}).

(** ** The input schema *)

Record IrisInput := mkIrisInput {
  sepal_length : float;
  sepal_width : float;
  petal_length : float;
  petal_width : float
}.

(** The JSON object of a request body, by member name. *)
Abbreviation Body := (gmap string float).

Inductive ErrorType := missing | greater_than.

(** What [json.dumps(..., allow_nan=False)] accepts of a float: NaN and the
    two infinities are refused. *)
Definition json_compliant (v : float) : bool :=
  negb (is_nan v) && negb (is_infinity v).

Definition body_compliant (body : Body) : bool :=
  bool_decide (map_Forall (fun _ v => json_compliant v = true) body).

(** The input an entry of the error report echoes: the value of the member
    that is not above zero, or, for a member that is missing, the body. *)
Inductive Echo :=
| echo_value (v : float)
| echo_body (body : Body).

Definition echo_compliant (i : Echo) : bool :=
  match i with
  | echo_value v => json_compliant v
  | echo_body body => body_compliant body
  end.

Record ErrorDetail := mkError { loc : string; type : ErrorType; input : Echo }.

Definition field_names : list string :=
  ["sepal_length"; "sepal_width"; "petal_length"; "petal_width"].

(** [Field(..., gt=0)]: the member is required and must exceed zero. *)
Definition Field_gt0 (body : Body) (name : string) : ErrorDetail + float :=
  match body !! name with
  | None => inl (mkError name missing (echo_body body))
  | Some v =>
      if (0 <? v)%float then inr v
      else inl (mkError name greater_than (echo_value v))
  end.

Definition errors_of (r : ErrorDetail + float) : list ErrorDetail :=
  match r with
  | inl e => [e]
  | inr _ => []
  end.

(** Validation of a body against [IrisInput]: every field is checked and the
    errors of all of them are reported together. *)
Definition IrisInput_validate (body : Body) : list ErrorDetail + IrisInput :=
  let sl := Field_gt0 body "sepal_length" in
  let sw := Field_gt0 body "sepal_width" in
  let pl := Field_gt0 body "petal_length" in
  let pw := Field_gt0 body "petal_width" in
  match sl, sw, pl, pw with
  | inr a, inr b, inr c, inr d => inr (mkIrisInput a b c d)
  | _, _, _, _ => inl (errors_of sl ++ errors_of sw ++ errors_of pl ++ errors_of pw)
  end.

(** ** Responses *)

Definition HTTP_200_OK : nat := 200.
Definition HTTP_400_BAD_REQUEST : nat := 400.
Definition HTTP_422_UNPROCESSABLE_ENTITY : nat := 422.
Definition HTTP_500_INTERNAL_SERVER_ERROR : nat := 500.

Inductive JSON :=
| JInt (z : Z)
| JString (s : string)
| JObject (members : list (string * JSON)).

Inductive Content :=
| json (v : JSON)
| validation_errors (detail : list ErrorDetail)
| text (s : string).

Record Response := mkResponse {
  status_code : nat;
  media_type : string;
  content : Content
}.

Definition JSONResponse (code : nat) (v : JSON) : Response :=
  mkResponse code "application/json" (json v).

(** The response to an exception that nothing handles. *)
Definition internal_server_error : Response :=
  mkResponse HTTP_500_INTERNAL_SERVER_ERROR "text/plain; charset=utf-8"
    (text "Internal Server Error").

(** The error report can be written as JSON: no entry echoes a float that
    [json.dumps] refuses. *)
Definition renders (errs : list ErrorDetail) : bool :=
  forallb (fun e => echo_compliant (input e)) errs.

(** The response to a body the schema rejects: the report of the errors
    under status 422; when the report cannot be written, the handler of
    validation errors itself raises and the response is the 500 above. *)
Definition validation_error_response (errs : list ErrorDetail) : Response :=
  if renders errs
  then mkResponse HTTP_422_UNPROCESSABLE_ENTITY "application/json" (validation_errors errs)
  else internal_server_error.

(** What a path operation can raise: [fastapi.HTTPException], which the
    framework turns into a response of its own status, or anything else,
    which it does not handle. *)
Inductive Raised :=
| HTTPException (status_code : nat) (detail : string)
| Unhandled (e : Py.Exception).

(** ** The handlers *)

(** [GET /] *)
Definition root : list (string * string) :=
  [("message", "FastAPI ML API is running")].

(** The one-row matrix [features] that [predict] builds from the fields. *)
Definition features (data : IrisInput) : list (list float) :=
  [[sepal_length data; sepal_width data; petal_length data; petal_width data]].

(** The body of the [try] block of [predict]. *)
Definition inference (data : IrisInput) : M Py.Exception (list (string * Z)) :=
  fun w =>
    (pred ← lift (Model.first_label (model w) (features data));
     ret [("prediction", pred)]) w.

(** [POST /predict] *)
Definition predict (data : IrisInput) : M Raised (list (string * Z)) :=
  REQUEST_COUNT_inc;;
  start ← time_time;
  try_finally
    (try_except
       (inference data)
       (fun e => raise (HTTPException HTTP_400_BAD_REQUEST (Py.str e))))
    (now ← time_time;
     REQUEST_LATENCY_observe (now - start)%float).

Inductive Request :=
| GET_root
| POST_predict (body : Body)
| GET_metrics.

Definition dict_str (d : list (string * string)) : JSON :=
  JObject (map (fun kv => (fst kv, JString (snd kv))) d).

Definition dict_int (d : list (string * Z)) : JSON :=
  JObject (map (fun kv => (fst kv, JInt (snd kv))) d).

Section Service.

(** [generate_latest()]: the text exposition of the registry. *)
Variable generate_latest : Prometheus.Registry -> string.

(** [GET /metrics] *)
Definition metrics (w : World) : Response :=
  mkResponse HTTP_200_OK Prometheus.CONTENT_TYPE_LATEST (text (generate_latest (REGISTRY w))).

(** The framework around the handlers: the route, the validation of the
    body before the handler is entered, the response built from what the
    handler returns or raises. *)
Definition app (req : Request) (w : World) : Response * World :=
  match req with
  | GET_root => (JSONResponse HTTP_200_OK (dict_str root), w)
  | POST_predict body =>
      match IrisInput_validate body with
      | inl errs => (validation_error_response errs, w)
      | inr data =>
          match predict data w with
          | (Return d, w') => (JSONResponse HTTP_200_OK (dict_int d), w')
          | (Raise (HTTPException code detail), w') =>
              (JSONResponse code (JObject [("detail", JString detail)]), w')
          | (Raise (Unhandled _), w') => (internal_server_error, w')
          end
      end
  | GET_metrics => (metrics w, w)
  end.

(** A run of the process: the requests served one after the other. *)
Fixpoint serve (reqs : list Request) (w : World) : list Response * World :=
  match reqs with
  | [] => ([], w)
  | req :: rest =>
      let '(resp, w') := app req w in
      let '(resps, w'') := serve rest w' in
      (resp :: resps, w'')
  end.

End Service.

(** ** Estimators and requests to run the service on *)

(** [check_array] of scikit-learn: every entry must be a finite number. *)
Definition all_finite (rows : list (list float)) : bool :=
  forallb (forallb (fun x => negb (is_nan x) && negb (is_infinity x))) rows.

Definition tree_label (row : list float) : Z :=
  match row with
  | [_; _; pl; pw] =>
      if (pl <=? 2.45)%float then 0%Z
      else if (pw <=? 1.75)%float then 1%Z
      else 2%Z
  | _ => 0%Z
  end.

Definition array_getitem {A} (out : list A) (i : Z) : Outcome Py.Exception A :=
  match (if (i <? 0)%Z then None else out !! Z.to_nat i) with
  | Some x => Return x
  | None => Raise (mkException "IndexError" "index out of bounds")
  end.

(** A depth-two decision tree over petal length and petal width, behind the
    input check that scikit-learn estimators run first. *)
Definition iris_tree : Model.t :=
  {| Model.Output := list Z;
     Model.Item := Z;
     Model.predict := fun rows =>
       if all_finite rows then Return (map tree_label rows)
       else Raise (mkException "ValueError" "Input contains NaN or infinity.");
     Model.getitem := array_getitem;
     Model.int := fun label => Return label |}.

(** The same tree, fitted on species names: its labels are not numbers. *)
Definition species_name (label : Z) : string :=
  match label with
  | 0%Z => "setosa"
  | 1%Z => "versicolor"
  | _ => "virginica"
  end.

Definition named_tree : Model.t :=
  {| Model.Output := list string;
     Model.Item := string;
     Model.predict := fun rows =>
       if all_finite rows then Return (map (fun r => species_name (tree_label r)) rows)
       else Raise (mkException "ValueError" "Input contains NaN or infinity.");
     Model.getitem := array_getitem;
     Model.int := fun name =>
       Raise (mkException "ValueError"
                ("invalid literal for int() with base 10: '" +:+ name +:+ "'")) |}.

Definition body_of (sl sw pl pw : float) : Body :=
  <["sepal_length" := sl]> (<["sepal_width" := sw]>
  (<["petal_length" := pl]> (<["petal_width" := pw]> ∅))).

Definition setosa_input : IrisInput := mkIrisInput 5.1 3.5 1.4 0.2.

Definition setosa_body : Body := body_of 5.1 3.5 1.4 0.2.

(** A body whose first member overflows to infinity when it is read, as the
    JSON number 1e999 does. *)
Definition unbounded_input : IrisInput := mkIrisInput infinity 3.5 1.4 0.2.

Definition unbounded_body : Body := body_of infinity 3.5 1.4 0.2.

Definition negative_body : Body := body_of (-1) 3 1 1.

(** A body whose first member underflows to minus infinity when it is read,
    as the JSON number -1e999 does. *)
Definition neg_unbounded_body : Body := body_of neg_infinity 3.5 1.4 0.2.

(** A body without petal width, and the same body with a member the schema
    does not declare, holding infinity. *)
Definition partial_body : Body := delete "petal_width" setosa_body.

Definition partial_body_with_infinity : Body := <["note" := infinity]> partial_body.

(** The Setosa-like body with a member the schema does not declare. *)
Definition annotated_body : Body := <["sample_id" := 17%float]> setosa_body.

Definition sample_clock (k : nat) : float :=
  match k with
  | 0 => 100
  | _ => 100.25
  end.

Definition world_of (m : Model.t) : World :=
  {| model := m; REQUEST_COUNT := 41%N; REQUEST_LATENCY := [0.5%float];
     wall_clock := sample_clock; clock_reads := 0 |}.

Definition no_exposition (r : Prometheus.Registry) : string := "".

(** Modelled from the spec: the estimator pickled in [model.joblib] is not
    among the sources.  The spec's concrete scenario and the docstring of
    [predict] say what it answers at the Setosa-like point: class 0. *)
Definition labels_setosa_point (m : Model.t) : Prop :=
  Model.first_label m [[5.1; 3.5; 1.4; 0.2]%float] = Return 0%Z.

(** The estimator has the three classes of the Iris data: whenever it labels
    a row, the label is 0, 1 or 2. *)
Definition three_classes (m : Model.t) : Prop :=
  forall rows n, Model.first_label m rows = Return n -> (0 <= n <= 2)%Z.

(** ** What a run leaves behind *)

(** The requests that get past the schema and enter [predict]. *)
Definition enters_predict (req : Request) : bool :=
  match req with
  | POST_predict body =>
      match IrisInput_validate body with
      | inr _ => true
      | inl _ => false
      end
  | _ => false
  end.

Definition entries (reqs : list Request) : nat :=
  length (List.filter enters_predict reqs).

(** The samples of [k] calls of [predict] in a row, the first of which
    starts at reading [r] of the clock: each call reads the clock twice and
    observes the difference. *)
Fixpoint latencies (clock : nat -> float) (r k : nat) : list float :=
  match k with
  | 0 => []
  | S k' => (clock (S r) - clock r)%float :: latencies clock (S (S r)) k'
  end.

(** ** The load generator of [locustfile.py] *)

Module Locust.

(** The bounds given to [random.uniform] in [predict_iris], by member. *)
Definition sepal_length_range : float * float := (4.0, 8.0)%float.
Definition sepal_width_range : float * float := (2.0, 4.5)%float.
Definition petal_length_range : float * float := (1.0, 7.0)%float.
Definition petal_width_range : float * float := (0.1, 2.5)%float.

Definition within (range : float * float) (v : float) : bool :=
  (fst range <=? v)%float && (v <=? snd range)%float.

(** The tasks of [FastAPIUser].  [predict_iris] carries the four values it
    drew, each [round(random.uniform(lo, hi), 1)]. *)
Inductive Task :=
| predict_iris (sl sw pl pw : float)
| health_check
| get_metrics.

(** The values are in the ranges they are drawn from: [random.uniform]
    yields a value between its bounds, and rounding it to one decimal keeps
    it there, the bounds having one decimal themselves. *)
Definition drawn (t : Task) : bool :=
  match t with
  | predict_iris sl sw pl pw =>
      within sepal_length_range sl && within sepal_width_range sw &&
      within petal_length_range pl && within petal_width_range pw
  | _ => true
  end.

(** The request a task sends. *)
Definition request (t : Task) : Request :=
  match t with
  | predict_iris sl sw pl pw => POST_predict (body_of sl sw pl pw)
  | health_check => GET_root
  | get_metrics => GET_metrics
  end.

(** One simulated user: [on_start], then the tasks in the order they are
    scheduled. *)
Definition session (tasks : list Task) : list Request :=
  GET_root :: map request tasks.

Definition is_predict_iris (t : Task) : bool :=
  match t with
  | predict_iris _ _ _ _ => true
  | _ => false
  end.

Inductive Report :=
| success
| failure (message : string).

(** The [with] block of [predict_iris]. *)
Definition report (response : Response) : Report :=
  if Nat.eqb (status_code response) 200 then success
  else failure ("Status code: " +:+ pretty (status_code response)).

End Locust.

Definition busy_tasks : list Locust.Task :=
  [Locust.predict_iris 5.1 3.5 1.4 0.2; Locust.health_check;
   Locust.predict_iris 6.7 3.0 5.2 2.3; Locust.get_metrics]%float.

(** * Properties *)

(** ** The schema *)

Lemma Field_gt0_inr body name v :
  Field_gt0 body name = inr v <-> body !! name = Some v /\ (0 <? v)%float = true.
Proof.
  unfold Field_gt0. destruct (body !! name) as [x|]; [|split; [discriminate|intros [? _]; discriminate]].
  destruct (0 <? x)%float eqn:Hx; split.
  - intros [= ->]. auto.
  - intros [[= ->] _]. reflexivity.
  - discriminate.
  - intros [[= ->] Hv]. congruence.
Qed.

Lemma Field_gt0_inl body name :
  body !! name = None \/ (exists v, body !! name = Some v /\ (0 <? v)%float = false) ->
  exists e, Field_gt0 body name = inl e.
Proof.
  unfold Field_gt0. intros [-> | (v & -> & ->)]; eauto.
Qed.

(** A body is accepted exactly when the four members are there and exceed
    zero; the fields of the parsed input are then the members. *)
Lemma IrisInput_validate_inr body data :
  IrisInput_validate body = inr data <->
  Field_gt0 body "sepal_length" = inr (sepal_length data) /\
  Field_gt0 body "sepal_width" = inr (sepal_width data) /\
  Field_gt0 body "petal_length" = inr (petal_length data) /\
  Field_gt0 body "petal_width" = inr (petal_width data).
Proof.
  unfold IrisInput_validate. destruct data as [a b c d]; simpl.
  destruct (Field_gt0 body "sepal_length"), (Field_gt0 body "sepal_width"),
    (Field_gt0 body "petal_length"), (Field_gt0 body "petal_width");
    split; try discriminate; try (intros (? & ? & ? & ?); discriminate).
  - intros [= -> -> -> ->]. auto.
  - intros ([= ->] & [= ->] & [= ->] & [= ->]). reflexivity.
Qed.

Lemma IrisInput_validate_inl body name :
  name ∈ field_names ->
  (exists e, Field_gt0 body name = inl e) ->
  exists errs, IrisInput_validate body = inl errs.
Proof.
  intros Hin [e He]. unfold IrisInput_validate.
  destruct (Field_gt0 body "sepal_length") eqn:H1, (Field_gt0 body "sepal_width") eqn:H2,
    (Field_gt0 body "petal_length") eqn:H3, (Field_gt0 body "petal_width") eqn:H4;
    eauto.
  exfalso. unfold field_names in Hin.
  repeat (apply elem_of_cons in Hin as [-> | Hin]; [congruence|]).
  by apply elem_of_nil in Hin.
Qed.

(** A value at or below zero does not exceed zero. *)
Lemma leb_zero_not_gt (v : float) : (v <=? 0)%float = true -> (0 <? v)%float = false.
Proof.
  rewrite leb_spec, ltb_spec.
  replace (Prim2SF 0) with (S754_zero false) by reflexivity.
  destruct (Prim2SF v) as [s | s | | s m e]; try destruct s; cbn; congruence.
Qed.

(** ** The [predict] handler, step by step *)

(** The reading of the clock at entry and the one taken in the [finally]
    block are the next two of the wall clock. *)
Lemma predict_run data w :
  predict data w =
  (match Model.first_label (model w) (features data) with
   | Return pred => Return [("prediction", pred)]
   | Raise e => Raise (HTTPException HTTP_400_BAD_REQUEST (Py.str e))
   end,
   {| model := model w;
      REQUEST_COUNT := (REQUEST_COUNT w + 1)%N;
      REQUEST_LATENCY :=
        REQUEST_LATENCY w ++
        [(wall_clock w (S (clock_reads w)) - wall_clock w (clock_reads w))%float];
      wall_clock := wall_clock w;
      clock_reads := S (S (clock_reads w)) |}).
Proof.
  unfold predict, inference, try_finally, try_except, mbind, M_bind, mbindM, lift, ret, raise.
  cbn. destruct (Model.first_label (model w) (features data)); reflexivity.
Qed.

Lemma first_label_Raise m rows e :
  Model.first_label m rows = Raise e <->
  Model.predict m rows = Raise e \/
  (exists out, Model.predict m rows = Return out /\ Model.getitem m out 0%Z = Raise e) \/
  (exists out item, Model.predict m rows = Return out /\
     Model.getitem m out 0%Z = Return item /\ Model.int m item = Raise e).
Proof.
  unfold Model.first_label, Py.bind.
  destruct (Model.predict m rows) as [out|e1].
  - destruct (Model.getitem m out 0%Z) as [item|e2] eqn:Hg.
    + split.
      * intros H. right. right. exists out, item. auto.
      * intros [H | [(o & [= <-] & H) | (o & i & [= <-] & H1 & H2)]]; try discriminate.
        -- congruence.
        -- rewrite Hg in H1. injection H1 as <-. exact H2.
    + split.
      * intros [= ->]. right. left. exists out. auto.
      * intros [H | [(o & [= <-] & H) | (o & i & [= <-] & H1 & H2)]]; try discriminate.
        -- congruence.
        -- congruence.
  - split.
    + intros [= ->]. auto.
    + intros [H | [(o & H & _) | (o & i & H & _)]]; congruence.
Qed.

Section Claims.

Variable generate_latest : Prometheus.Registry -> string.

Lemma app_predict_invalid body errs w :
  IrisInput_validate body = inl errs ->
  app generate_latest (POST_predict body) w = (validation_error_response errs, w).
Proof. intros Hv. unfold app. rewrite Hv. reflexivity. Qed.

Lemma app_predict_valid body data w :
  IrisInput_validate body = inr data ->
  app generate_latest (POST_predict body) w =
  (match Model.first_label (model w) (features data) with
   | Return pred => JSONResponse HTTP_200_OK (JObject [("prediction", JInt pred)])
   | Raise e =>
       JSONResponse HTTP_400_BAD_REQUEST (JObject [("detail", JString (Py.str e))])
   end,
   snd (predict data w)).
Proof.
  intros Hv. unfold app. rewrite Hv, predict_run.
  destruct (Model.first_label (model w) (features data)); reflexivity.
Qed.

Local Abbreviation app := (app generate_latest).
Local Abbreviation serve := (serve generate_latest).

Lemma serve_length reqs w : length (fst (serve reqs w)) = length reqs.
Proof.
  revert w. induction reqs as [|req rest IH]; intros w; simpl; [reflexivity|].
  destruct (app req w) as [resp w1]. specialize (IH w1).
  destruct (serve rest w1) as [resps w2]. simpl in *. by rewrite IH.
Qed.

Lemma serve_cons req rest w :
  serve (req :: rest) w =
  (fst (app req w) :: fst (serve rest (snd (app req w))),
   snd (serve rest (snd (app req w)))).
Proof.
  simpl. destruct (app req w) as [resp w1]. simpl.
  destruct (serve rest w1) as [resps w2]. reflexivity.
Qed.

Lemma app_count_le req w :
  (REQUEST_COUNT w <= REQUEST_COUNT (snd (app req w)))%N.
Proof.
  destruct req as [|body|]; simpl; try lia.
  destruct (IrisInput_validate body) as [errs|data]; simpl; [lia|].
  rewrite predict_run.
  destruct (Model.first_label (model w) (features data)); simpl; lia.
Qed.

Lemma app_model req w : model (snd (app req w)) = model w.
Proof.
  destruct req as [|body|]; simpl; try reflexivity.
  destruct (IrisInput_validate body) as [errs|data]; simpl; [reflexivity|].
  rewrite predict_run.
  destruct (Model.first_label (model w) (features data)); reflexivity.
Qed.

Lemma serve_model reqs w : model (snd (serve reqs w)) = model w.
Proof.
  revert w. induction reqs as [|req rest IH]; intros w; [reflexivity|].
  rewrite serve_cons. simpl. rewrite IH. apply app_model.
Qed.

(** C1. A schema-valid POST /predict adds exactly 1 to [api_requests_total]
    and exactly one sample, the time between the two clock readings, to
    [api_request_latency_seconds], whatever the estimator does: the
    statement holds for every estimator, so for the returning and for the
    raising exit of the [try] block alike. *)
Theorem predict_counts_once_and_observes_once body data w :
  IrisInput_validate body = inr data ->
  REQUEST_COUNT (snd (app (POST_predict body) w)) = (REQUEST_COUNT w + 1)%N /\
  REQUEST_LATENCY (snd (app (POST_predict body) w)) =
    REQUEST_LATENCY w ++
    [(wall_clock w (S (clock_reads w)) - wall_clock w (clock_reads w))%float] /\
  Prometheus.count (REQUEST_LATENCY (snd (app (POST_predict body) w))) =
    S (Prometheus.count (REQUEST_LATENCY w)).
Proof.
  intros Hv. rewrite (app_predict_valid _ _ _ Hv), predict_run. simpl.
  repeat split. unfold Prometheus.count. rewrite length_app. simpl. lia.
Qed.

(** C2, at an input where the service departs from it.  The member -1e999
    is read as minus infinity.  It is at most zero and the schema rejects
    it, but the report of the error echoes the value, the report cannot be
    written as JSON, and the response is 500, not the 422 of a validation
    error.  The state is untouched all the same. *)
Theorem negative_infinity_is_answered_500 w :
  neg_unbounded_body !! "sepal_length" = Some neg_infinity /\
  (neg_infinity <=? 0)%float = true /\
  IrisInput_validate neg_unbounded_body =
    inl [mkError "sepal_length" greater_than (echo_value neg_infinity)] /\
  status_code (fst (app (POST_predict neg_unbounded_body) w)) = 500 /\
  snd (app (POST_predict neg_unbounded_body) w) = w.
Proof.
  assert (Hv : IrisInput_validate neg_unbounded_body =
               inl [mkError "sepal_length" greater_than (echo_value neg_infinity)])
    by reflexivity.
  split; [reflexivity|]. split; [reflexivity|]. split; [exact Hv|].
  rewrite (app_predict_invalid _ _ _ Hv). split; reflexivity.
Qed.

(** C3. When the call of the estimator raises on a schema-valid request,
    the handler raises the HTTP exception of status 400 whose detail is
    the text of the exception raised, the response is 400 with that text
    under [detail], and the run goes on: every later request is answered. *)
Theorem model_failure_is_400_with_message body data w e :
  IrisInput_validate body = inr data ->
  Model.predict (model w) (features data) = Raise e ->
  fst (predict data w) = Raise (HTTPException 400 (Py.str e)) /\
  fst (app (POST_predict body) w) =
    JSONResponse 400 (JObject [("detail", JString (Py.str e))]) /\
  forall rest,
    length (fst (serve (POST_predict body :: rest) w)) = S (length rest).
Proof.
  intros Hv He.
  assert (Hl : Model.first_label (model w) (features data) = Raise e).
  { apply first_label_Raise. by left. }
  rewrite (app_predict_valid _ _ _ Hv), predict_run, Hl. simpl.
  repeat split. intros rest. apply (serve_length (POST_predict body :: rest)).
Qed.

(** C4, as amended. On a schema-valid request for which the estimator
    yields the integer label n, the response is 200 with body
    [{"prediction": n}]; n is 0, 1 or 2 when the estimator has the three
    Iris classes. *)
Theorem valid_input_labelled_is_200 body data w n :
  IrisInput_validate body = inr data ->
  Model.first_label (model w) (features data) = Return n ->
  fst (app (POST_predict body) w) =
    JSONResponse 200 (JObject [("prediction", JInt n)]) /\
  (three_classes (model w) -> (0 <= n <= 2)%Z).
Proof.
  intros Hv Hl. rewrite (app_predict_valid _ _ _ Hv), Hl. simpl.
  split; [reflexivity|]. intros H3. exact (H3 _ _ Hl).
Qed.

(** C5. GET /metrics answers 200 with the content type
    [text/plain; version=0.0.4; charset=utf-8] and the exposition of the
    registry as it is at the call, and changes nothing: after any number
    of calls in a row the world, so the counter and the histogram, is the
    one before the first call, and all the responses are the same. *)
Theorem metrics_is_idempotent n w :
  app GET_metrics w =
    (mkResponse 200 "text/plain; version=0.0.4; charset=utf-8"
       (text (generate_latest
                (Prometheus.mkRegistry (REQUEST_COUNT w) (REQUEST_LATENCY w)))), w) /\
  serve (repeat GET_metrics n) w =
    (repeat (mkResponse 200 "text/plain; version=0.0.4; charset=utf-8"
               (text (generate_latest
                        (Prometheus.mkRegistry (REQUEST_COUNT w) (REQUEST_LATENCY w)))))
       n, w).
Proof.
  split; [reflexivity|].
  induction n as [|n IH]; [reflexivity|].
  cbn [repeat]. rewrite serve_cons. simpl. rewrite IH. reflexivity.
Qed.

(** C6. GET / answers 200 with the fixed JSON object
    [{"message": "FastAPI ML API is running"}] and leaves the world, so
    the counter and the histogram, unchanged. *)
Theorem root_is_200_and_pure w :
  app GET_root w =
    (JSONResponse 200 (JObject [("message", JString "FastAPI ML API is running")]), w) /\
  REQUEST_COUNT (snd (app GET_root w)) = REQUEST_COUNT w /\
  REQUEST_LATENCY (snd (app GET_root w)) = REQUEST_LATENCY w.
Proof. repeat split. Qed.

(** C7. Over any sequence of requests to the three endpoints, with valid
    or invalid bodies, the request counter never decreases: from any world
    of a run, the counter after the requests that follow is at least the
    counter there. *)
Theorem request_count_is_monotonic reqs w :
  (REQUEST_COUNT w <= REQUEST_COUNT (snd (serve reqs w)))%N.
Proof.
  revert w. induction reqs as [|req rest IH]; intros w; [simpl; lia|].
  rewrite serve_cons. simpl.
  pose proof (app_count_le req w). pose proof (IH (snd (app req w))). lia.
Qed.

(** C8. With an estimator that labels the Setosa-like point 0, the request
    with members 5.1, 3.5, 1.4 and 0.2 is answered 200 with body
    [{"prediction": 0}]. *)
Theorem setosa_point_is_predicted_0 w :
  labels_setosa_point (model w) ->
  IrisInput_validate setosa_body = inr setosa_input /\
  fst (app (POST_predict setosa_body) w) =
    JSONResponse 200 (JObject [("prediction", JInt 0)]).
Proof.
  intros Hm.
  assert (Hv : IrisInput_validate setosa_body = inr setosa_input) by reflexivity.
  split; [exact Hv|].
  rewrite (app_predict_valid _ _ _ Hv).
  unfold labels_setosa_point in Hm. unfold features, setosa_input. simpl.
  rewrite Hm. reflexivity.
Qed.

(** C9. The estimator is bound once, by the load at startup, and no
    request rebinds it: each of the three handlers leaves [model] as it
    is, and after any run from startup [model] is still the estimator that
    was loaded. *)
Theorem model_is_loaded_once_and_kept :
  (forall req w, model (snd (app req w)) = model w) /\
  (forall reqs w, model (snd (serve reqs w)) = model w) /\
  (forall m clock, exists w0,
      startup (Return m) clock = Return w0 /\
      model w0 = m /\
      forall reqs, model (snd (serve reqs w0)) = m).
Proof.
  split; [exact app_model|]. split; [exact serve_model|].
  intros m clock. eexists. split; [reflexivity|]. split; [reflexivity|].
  intros reqs. by rewrite serve_model.
Qed.

(** C10. On a schema-valid request, an exception raised anywhere in the
    [try] block, by the call of the estimator, by the indexing of its
    output or by the conversion to int, becomes the response 400 whose
    detail is the text of that exception; the handler never lets an
    exception other than its own HTTP exception escape, and the response
    is never a 500.  (The feature matrix is a list of four field reads of
    a parsed input: building it raises nothing.) *)
Theorem inference_exceptions_are_400 body data w :
  IrisInput_validate body = inr data ->
  (forall e,
      Model.predict (model w) (features data) = Raise e \/
      (exists out, Model.predict (model w) (features data) = Return out /\
         Model.getitem (model w) out 0%Z = Raise e) \/
      (exists out item, Model.predict (model w) (features data) = Return out /\
         Model.getitem (model w) out 0%Z = Return item /\
         Model.int (model w) item = Raise e) ->
      fst (app (POST_predict body) w) =
        JSONResponse 400 (JObject [("detail", JString (Py.str e))])) /\
  (forall e, fst (predict data w) <> Raise (Unhandled e)) /\
  (status_code (fst (app (POST_predict body) w)) = 200 \/
   status_code (fst (app (POST_predict body) w)) = 400).
Proof.
  intros Hv. rewrite (app_predict_valid _ _ _ Hv), predict_run.
  split; [|split].
  - intros e He. apply first_label_Raise in He. rewrite He. reflexivity.
  - intros e. simpl.
    destruct (Model.first_label (model w) (features data)); discriminate.
  - simpl. destruct (Model.first_label (model w) (features data)); auto.
Qed.

End Claims.

(** ** The statements at concrete requests *)

Lemma predict_counts_once_and_observes_once_witness :
  IrisInput_validate unbounded_body = inr unbounded_input /\
  REQUEST_COUNT
    (snd (app no_exposition (POST_predict unbounded_body) (world_of iris_tree))) = 42%N /\
  REQUEST_LATENCY
    (snd (app no_exposition (POST_predict unbounded_body) (world_of iris_tree))) =
    [0.5; 0.25]%float /\
  Prometheus.count
    (REQUEST_LATENCY
       (snd (app no_exposition (POST_predict unbounded_body) (world_of iris_tree)))) = 2.
Proof.
  split; [reflexivity|].
  apply (predict_counts_once_and_observes_once no_exposition unbounded_body
           unbounded_input (world_of iris_tree)).
  reflexivity.
Defined.

Lemma model_failure_is_400_with_message_witness :
  IrisInput_validate unbounded_body = inr unbounded_input /\
  Model.predict iris_tree (features unbounded_input) =
    Raise (mkException "ValueError" "Input contains NaN or infinity.") /\
  fst (predict unbounded_input (world_of iris_tree)) =
    Raise (HTTPException 400 "Input contains NaN or infinity.") /\
  fst (app no_exposition (POST_predict unbounded_body) (world_of iris_tree)) =
    JSONResponse 400 (JObject [("detail", JString "Input contains NaN or infinity.")]) /\
  forall rest,
    length (fst (serve no_exposition (POST_predict unbounded_body :: rest)
                   (world_of iris_tree))) = S (length rest).
Proof.
  split; [reflexivity|]. split; [reflexivity|].
  apply (model_failure_is_400_with_message no_exposition unbounded_body
           unbounded_input (world_of iris_tree)
           (mkException "ValueError" "Input contains NaN or infinity."));
    reflexivity.
Defined.

(** C4, as stated, fails: the body whose first member is infinite passes the
    schema, the estimator refuses it, and the response is 400, not 200. *)
Lemma valid_input_answered_400 :
  IrisInput_validate unbounded_body = inr unbounded_input /\
  fst (app no_exposition (POST_predict unbounded_body) (world_of iris_tree)) =
    JSONResponse 400 (JObject [("detail", JString "Input contains NaN or infinity.")]) /\
  ~ (exists n,
        fst (app no_exposition (POST_predict unbounded_body) (world_of iris_tree)) =
          JSONResponse 200 (JObject [("prediction", JInt n)]) /\
        (0 <= n <= 2)%Z).
Proof.
  split; [reflexivity|]. split; [reflexivity|].
  intros (n & Hn & _). vm_compute in Hn. discriminate Hn.
Qed.

Lemma iris_tree_three_classes : three_classes iris_tree.
Proof.
  intros rows n. unfold Model.first_label. simpl.
  destruct (all_finite rows); [|discriminate]. simpl.
  destruct rows as [|row rows]; simpl; [discriminate|].
  intros [= <-]. unfold tree_label.
  destruct row as [|? [|? [|pl [|pw [|? ?]]]]]; try lia.
  destruct (pl <=? 2.45)%float; [lia|]. destruct (pw <=? 1.75)%float; lia.
Qed.

Lemma valid_input_labelled_is_200_witness :
  IrisInput_validate setosa_body = inr setosa_input /\
  Model.first_label iris_tree (features setosa_input) = Return 0%Z /\
  fst (app no_exposition (POST_predict setosa_body) (world_of iris_tree)) =
    JSONResponse 200 (JObject [("prediction", JInt 0)]) /\
  (three_classes iris_tree -> (0 <= 0 <= 2)%Z).
Proof.
  split; [reflexivity|]. split; [reflexivity|].
  apply (valid_input_labelled_is_200 no_exposition setosa_body setosa_input
           (world_of iris_tree) 0%Z); reflexivity.
Defined.

Lemma setosa_point_is_predicted_0_witness :
  labels_setosa_point iris_tree /\
  IrisInput_validate setosa_body = inr setosa_input /\
  fst (app no_exposition (POST_predict setosa_body) (world_of iris_tree)) =
    JSONResponse 200 (JObject [("prediction", JInt 0)]).
Proof.
  split; [reflexivity|].
  apply (setosa_point_is_predicted_0 no_exposition (world_of iris_tree)).
  reflexivity.
Defined.

Lemma inference_exceptions_are_400_witness :
  IrisInput_validate setosa_body = inr setosa_input /\
  (forall e,
      Model.predict named_tree (features setosa_input) = Raise e \/
      (exists out, Model.predict named_tree (features setosa_input) = Return out /\
         Model.getitem named_tree out 0%Z = Raise e) \/
      (exists out item, Model.predict named_tree (features setosa_input) = Return out /\
         Model.getitem named_tree out 0%Z = Return item /\
         Model.int named_tree item = Raise e) ->
      fst (app no_exposition (POST_predict setosa_body) (world_of named_tree)) =
        JSONResponse 400 (JObject [("detail", JString (Py.str e))])) /\
  (forall e, fst (predict setosa_input (world_of named_tree)) <> Raise (Unhandled e)) /\
  (status_code
     (fst (app no_exposition (POST_predict setosa_body) (world_of named_tree))) = 200 \/
   status_code
     (fst (app no_exposition (POST_predict setosa_body) (world_of named_tree))) = 400).
Proof.
  split; [reflexivity|].
  apply (inference_exceptions_are_400 no_exposition setosa_body setosa_input
           (world_of named_tree)).
  reflexivity.
Defined.

(** The conversion to int is one of the places that raise: with labels that
    are species names the response is 400 and carries the text of the
    [ValueError]. *)
Example named_labels_are_400 :
  fst (app no_exposition (POST_predict setosa_body) (world_of named_tree)) =
  JSONResponse 400
    (JObject [("detail", JString "invalid literal for int() with base 10: 'setosa'")]).
Proof. reflexivity. Qed.

Example negative_member_is_422 :
  app no_exposition (POST_predict negative_body) (world_of iris_tree) =
  (mkResponse 422 "application/json"
     (validation_errors [mkError "sepal_length" greater_than (echo_value (-1)%float)]),
   world_of iris_tree).
Proof. reflexivity. Qed.

(** * Further properties of the service and of its load generator *)

(** A value at or above a positive bound exceeds zero. *)
Lemma positive_above (lo v : float) :
  (0 <? lo)%float = true -> (lo <=? v)%float = true -> (0 <? v)%float = true.
Proof.
  rewrite !ltb_spec, leb_spec.
  replace (Prim2SF 0) with (S754_zero false) by reflexivity.
  destruct (Prim2SF lo) as [s | s | | s m e], (Prim2SF v) as [s' | s' | | s' m' e'];
    try destruct s; try destruct s'; cbn; congruence.
Qed.

Lemma body_of_lookup sl sw pl pw :
  body_of sl sw pl pw !! "sepal_length" = Some sl /\
  body_of sl sw pl pw !! "sepal_width" = Some sw /\
  body_of sl sw pl pw !! "petal_length" = Some pl /\
  body_of sl sw pl pw !! "petal_width" = Some pw.
Proof. unfold body_of. repeat split; by simplify_map_eq. Qed.

Lemma IrisInput_validate_members (body : Body) a b c d :
  body !! "sepal_length" = Some a -> body !! "sepal_width" = Some b ->
  body !! "petal_length" = Some c -> body !! "petal_width" = Some d ->
  (0 <? a)%float = true -> (0 <? b)%float = true ->
  (0 <? c)%float = true -> (0 <? d)%float = true ->
  IrisInput_validate body = inr (mkIrisInput a b c d).
Proof.
  intros Ha Hb Hc Hd Pa Pb Pc Pd. apply IrisInput_validate_inr. simpl.
  repeat split; apply Field_gt0_inr; auto.
Qed.

Lemma Field_gt0_agree (body1 body2 : Body) name v :
  body1 !! name = body2 !! name ->
  Field_gt0 body1 name = inr v <-> Field_gt0 body2 name = inr v.
Proof. intros H. by rewrite !Field_gt0_inr, H. Qed.

(** Two bodies that agree on the declared members are accepted together,
    with the same parsed input. *)
Lemma IrisInput_validate_agree (body1 body2 : Body) data :
  (forall name, name ∈ field_names -> body1 !! name = body2 !! name) ->
  IrisInput_validate body1 = inr data <-> IrisInput_validate body2 = inr data.
Proof.
  intros H. rewrite !IrisInput_validate_inr.
  rewrite (Field_gt0_agree body1 body2 "sepal_length"),
    (Field_gt0_agree body1 body2 "sepal_width"),
    (Field_gt0_agree body1 body2 "petal_length"),
    (Field_gt0_agree body1 body2 "petal_width");
    [reflexivity | apply H; unfold field_names; set_solver ..].
Qed.

Lemma body_compliant_lookup (body : Body) name v :
  body_compliant body = true -> body !! name = Some v -> json_compliant v = true.
Proof.
  unfold body_compliant. intros Hc Hl.
  apply bool_decide_eq_true in Hc. exact (Hc name v Hl).
Qed.

Lemma errors_of_Field_gt0_render (body : Body) name :
  body_compliant body = true -> renders (errors_of (Field_gt0 body name)) = true.
Proof.
  intros Hc. unfold Field_gt0, renders.
  destruct (body !! name) as [v|] eqn:Hl; simpl.
  - destruct (0 <? v)%float; simpl; [reflexivity|].
    by rewrite (body_compliant_lookup _ _ _ Hc Hl).
  - by rewrite Hc.
Qed.

Lemma IrisInput_validate_errors body errs :
  IrisInput_validate body = inl errs ->
  errs =
  errors_of (Field_gt0 body "sepal_length") ++ errors_of (Field_gt0 body "sepal_width") ++
  errors_of (Field_gt0 body "petal_length") ++ errors_of (Field_gt0 body "petal_width").
Proof.
  unfold IrisInput_validate.
  destruct (Field_gt0 body "sepal_length"), (Field_gt0 body "sepal_width"),
    (Field_gt0 body "petal_length"), (Field_gt0 body "petal_width");
    intros [= <-]; reflexivity.
Qed.

(** The report on a body all of whose members are finite can be written. *)
Lemma compliant_body_renders body errs :
  IrisInput_validate body = inl errs -> body_compliant body = true -> renders errs = true.
Proof.
  intros Hv Hc. rewrite (IrisInput_validate_errors _ _ Hv).
  pose proof (errors_of_Field_gt0_render body "sepal_length" Hc) as H1.
  pose proof (errors_of_Field_gt0_render body "sepal_width" Hc) as H2.
  pose proof (errors_of_Field_gt0_render body "petal_length" Hc) as H3.
  pose proof (errors_of_Field_gt0_render body "petal_width" Hc) as H4.
  unfold renders in *. rewrite !forallb_app, H1, H2, H3, H4. reflexivity.
Qed.

Lemma latencies_length clock r k : length (latencies clock r k) = k.
Proof. revert r. induction k as [|k IH]; intros r; simpl; [reflexivity|]. by rewrite IH. Qed.

Lemma entries_cons req rest :
  entries (req :: rest) = (if enters_predict req then S (entries rest) else entries rest).
Proof. unfold entries. simpl. destruct (enters_predict req); reflexivity. Qed.

Section Runs.

Variable generate_latest : Prometheus.Registry -> string.

Local Abbreviation app := (app generate_latest).
Local Abbreviation serve := (serve generate_latest).

Lemma app_ignored req w : enters_predict req = false -> snd (app req w) = w.
Proof.
  destruct req as [|body|]; simpl; try reflexivity.
  destruct (IrisInput_validate body); [reflexivity | discriminate].
Qed.

Lemma app_entered req w :
  enters_predict req = true ->
  snd (app req w) =
  {| model := model w;
     REQUEST_COUNT := (REQUEST_COUNT w + 1)%N;
     REQUEST_LATENCY :=
       REQUEST_LATENCY w ++
       [(wall_clock w (S (clock_reads w)) - wall_clock w (clock_reads w))%float];
     wall_clock := wall_clock w;
     clock_reads := S (S (clock_reads w)) |}.
Proof.
  destruct req as [|body|]; simpl; try discriminate.
  destruct (IrisInput_validate body) as [errs|data] eqn:Hv; [discriminate|].
  intros _. pose proof (app_predict_valid generate_latest _ _ w Hv) as Ha.
  simpl in Ha. rewrite Hv in Ha. rewrite Ha, predict_run. reflexivity.
Qed.

(** The world after a run, in closed form. *)
Lemma serve_world reqs w :
  snd (serve reqs w) =
  {| model := model w;
     REQUEST_COUNT := (REQUEST_COUNT w + N.of_nat (entries reqs))%N;
     REQUEST_LATENCY :=
       REQUEST_LATENCY w ++ latencies (wall_clock w) (clock_reads w) (entries reqs);
     wall_clock := wall_clock w;
     clock_reads := clock_reads w + 2 * entries reqs |}.
Proof.
  revert w. induction reqs as [|req rest IH]; intros w.
  - destruct w; unfold entries; simpl. f_equal; [lia | by rewrite app_nil_r | lia].
  - rewrite serve_cons, entries_cons. cbn [snd]. rewrite IH.
    destruct (enters_predict req) eqn:He.
    + rewrite (app_entered _ _ He). cbn [model REQUEST_COUNT REQUEST_LATENCY wall_clock clock_reads].
      f_equal; [lia | by rewrite <- app_assoc | lia].
    + rewrite (app_ignored _ _ He). reflexivity.
Qed.

Lemma serve_Forall (P : Response -> Prop) reqs :
  (forall req, In req reqs -> forall w, P (fst (app req w))) ->
  forall w, Forall P (fst (serve reqs w)).
Proof.
  induction reqs as [|req rest IH]; intros H w.
  - constructor.
  - rewrite serve_cons. cbn [fst]. constructor.
    + apply H. by left.
    + apply IH. intros r Hr. apply H. by right.
Qed.

End Runs.

Lemma entries_filter reqs : entries (List.filter enters_predict reqs) = entries reqs.
Proof.
  unfold entries. induction reqs as [|req rest IH]; [reflexivity|].
  simpl. destruct (enters_predict req) eqn:He; simpl; [|exact IH].
  rewrite He. simpl. by rewrite IH.
Qed.

Lemma drawn_members_positive sl sw pl pw :
  Locust.drawn (Locust.predict_iris sl sw pl pw) = true ->
  (0 <? sl)%float = true /\ (0 <? sw)%float = true /\
  (0 <? pl)%float = true /\ (0 <? pw)%float = true.
Proof.
  unfold Locust.drawn, Locust.within. simpl. intros H.
  apply andb_prop in H as [H Hpw]. apply andb_prop in H as [H Hpl].
  apply andb_prop in H as [Hsl Hsw].
  apply andb_prop in Hsl as [Hsl _]. apply andb_prop in Hsw as [Hsw _].
  apply andb_prop in Hpl as [Hpl _]. apply andb_prop in Hpw as [Hpw _].
  repeat split.
  - by apply (positive_above 4.0).
  - by apply (positive_above 2.0).
  - by apply (positive_above 1.0).
  - by apply (positive_above 0.1).
Qed.

Lemma generated_body_is_valid_aux sl sw pl pw :
  Locust.drawn (Locust.predict_iris sl sw pl pw) = true ->
  IrisInput_validate (body_of sl sw pl pw) = inr (mkIrisInput sl sw pl pw).
Proof.
  intros Hd.
  destruct (drawn_members_positive _ _ _ _ Hd) as (Ha & Hb & Hc & Hd').
  destruct (body_of_lookup sl sw pl pw) as (La & Lb & Lc & Ld).
  by apply IrisInput_validate_members.
Qed.

Lemma drawn_enters t :
  Locust.drawn t = true -> enters_predict (Locust.request t) = Locust.is_predict_iris t.
Proof.
  destruct t as [sl sw pl pw| |]; try reflexivity. intros Hd.
  destruct (drawn_members_positive _ _ _ _ Hd) as (Ha & Hb & Hc & Hd').
  destruct (body_of_lookup sl sw pl pw) as (La & Lb & Lc & Ld).
  simpl. by rewrite (IrisInput_validate_members _ _ _ _ _ La Lb Lc Ld Ha Hb Hc Hd').
Qed.

Lemma drawn_entries tasks :
  forallb Locust.drawn tasks = true ->
  entries (Locust.session tasks) = length (List.filter Locust.is_predict_iris tasks).
Proof.
  unfold Locust.session. rewrite entries_cons. simpl.
  induction tasks as [|t rest IH]; [reflexivity|].
  simpl. intros H. apply andb_prop in H as [Ht Hrest].
  rewrite entries_cons, (drawn_enters _ Ht), (IH Hrest).
  destruct (Locust.is_predict_iris t); reflexivity.
Qed.

Section Behaviour.

Variable generate_latest : Prometheus.Registry -> string.

Local Abbreviation app := (app generate_latest).
Local Abbreviation serve := (serve generate_latest).

(** X1. A body whose four members are there and exceed zero is accepted,
    whatever else it holds, and the estimator is asked about the one row
    sepal length, sepal width, petal length, petal width, in this order:
    the response is 200 with the label of that row, or 400 with the text of
    what the estimator raised on it. *)
Theorem accepted_body_reaches_estimator (body : Body) a b c d w :
  body !! "sepal_length" = Some a -> body !! "sepal_width" = Some b ->
  body !! "petal_length" = Some c -> body !! "petal_width" = Some d ->
  (0 <? a)%float = true -> (0 <? b)%float = true ->
  (0 <? c)%float = true -> (0 <? d)%float = true ->
  IrisInput_validate body = inr (mkIrisInput a b c d) /\
  fst (app (POST_predict body) w) =
    match Model.first_label (model w) [[a; b; c; d]] with
    | Return n => JSONResponse 200 (JObject [("prediction", JInt n)])
    | Raise e => JSONResponse 400 (JObject [("detail", JString (Py.str e))])
    end.
Proof.
  intros La Lb Lc Ld Pa Pb Pc Pd.
  pose proof (IrisInput_validate_members _ _ _ _ _ La Lb Lc Ld Pa Pb Pc Pd) as Hv.
  split; [exact Hv|].
  rewrite (app_predict_valid generate_latest _ _ w Hv). reflexivity.
Qed.

(** X2. Members the schema does not declare change neither whether a body
    is accepted nor the world the request leaves, and they do not change
    the response to an accepted body.  (The report on a rejected body
    echoes what was sent, so it may differ.) *)
Theorem only_declared_members_matter (body1 body2 : Body) w :
  (forall name, name ∈ field_names -> body1 !! name = body2 !! name) ->
  enters_predict (POST_predict body1) = enters_predict (POST_predict body2) /\
  snd (app (POST_predict body1) w) = snd (app (POST_predict body2) w) /\
  (enters_predict (POST_predict body1) = true ->
   app (POST_predict body1) w = app (POST_predict body2) w).
Proof.
  intros H. simpl.
  destruct (IrisInput_validate body1) as [errs1|data1] eqn:H1.
  - destruct (IrisInput_validate body2) as [errs2|data2] eqn:H2.
    + repeat split. discriminate.
    + apply (IrisInput_validate_agree _ _ data2 H) in H2. congruence.
  - apply (IrisInput_validate_agree _ _ data1 H) in H1. rewrite H1. repeat split.
Qed.



(** X14. A body in which one of the four members is missing or is at most
    zero, and all of whose members are finite numbers, is answered 422 and
    leaves the world as it was: the request counter is not incremented and
    no latency is observed. *)
Theorem rejected_finite_body_is_422 (body : Body) name w :
  name ∈ field_names ->
  (body !! name = None \/
   exists v, body !! name = Some v /\ (v <=? 0)%float = true) ->
  body_compliant body = true ->
  status_code (fst (app (POST_predict body) w)) = 422 /\
  snd (app (POST_predict body) w) = w /\
  REQUEST_COUNT (snd (app (POST_predict body) w)) = REQUEST_COUNT w /\
  REQUEST_LATENCY (snd (app (POST_predict body) w)) = REQUEST_LATENCY w.
Proof.
  intros Hin Hbad Hc.
  destruct (IrisInput_validate_inl body name Hin) as [errs Herrs].
  { apply Field_gt0_inl. destruct Hbad as [Hm | (v & Hv & Hle)]; [by left|].
    right. exists v. split; [exact Hv | by apply leb_zero_not_gt]. }
  rewrite (app_predict_invalid generate_latest _ _ w Herrs).
  unfold validation_error_response.
  rewrite (compliant_body_renders _ _ Herrs Hc). simpl. auto.
Qed.

(** X5. Over any run the request counter grows by exactly the number of
    POST /predict requests whose body passes the schema. *)
Theorem run_counts_entered_requests reqs w :
  REQUEST_COUNT (snd (serve reqs w)) = (REQUEST_COUNT w + N.of_nat (entries reqs))%N.
Proof. by rewrite serve_world. Qed.

(** X6. Over any run the histogram keeps the samples it had, in place, and
    gains one sample per request that entered [predict], in the order of
    the requests: the difference of the two clock readings of that request.
    No other request reads the clock. *)
Theorem run_appends_latencies reqs w :
  REQUEST_LATENCY (snd (serve reqs w)) =
    REQUEST_LATENCY w ++ latencies (wall_clock w) (clock_reads w) (entries reqs) /\
  Prometheus.count (REQUEST_LATENCY (snd (serve reqs w))) =
    Prometheus.count (REQUEST_LATENCY w) + entries reqs /\
  clock_reads (snd (serve reqs w)) = clock_reads w + 2 * entries reqs.
Proof.
  rewrite serve_world. simpl. repeat split.
  unfold Prometheus.count. by rewrite length_app, latencies_length.
Qed.

(** X7. From startup on, after any run, the number of samples in the
    latency histogram equals the request counter. *)
Theorem histogram_count_equals_request_count m clock reqs :
  exists w0,
    startup (Return m) clock = Return w0 /\
    REQUEST_COUNT (snd (serve reqs w0)) =
      N.of_nat (Prometheus.count (REQUEST_LATENCY (snd (serve reqs w0)))).
Proof.
  eexists. split; [reflexivity|].
  rewrite serve_world. simpl. unfold Prometheus.count.
  rewrite latencies_length. lia.
Qed.

(** X8. The responses of GET / and POST /predict depend on the estimator
    and the request alone: not on the counter, the histogram or the clock. *)
Theorem response_ignores_metrics_and_clock req w1 w2 :
  model w1 = model w2 ->
  req <> GET_metrics ->
  fst (app req w1) = fst (app req w2).
Proof.
  intros Hm Hreq. destruct req as [|body|]; [reflexivity| |congruence].
  simpl. destruct (IrisInput_validate body) as [errs|data]; [reflexivity|].
  rewrite !predict_run, Hm.
  destruct (Model.first_label (model w2) (features data)); reflexivity.
Qed.

(** X9. Requests that do not enter [predict] (GET /, GET /metrics, bodies
    the schema rejects) leave no trace: the world after a run is the world
    after the run with those requests removed. *)
Theorem ignored_requests_leave_no_trace reqs w :
  snd (serve reqs w) = snd (serve (List.filter enters_predict reqs) w).
Proof. by rewrite !serve_world, entries_filter. Qed.

(** X10. The exposition is never stale: a GET /metrics after any run is
    generated from the registry that already counts every request of the
    run that entered [predict], with one sample for each. *)
Theorem scrape_after_run_is_fresh reqs w :
  fst (app GET_metrics (snd (serve reqs w))) =
  mkResponse 200 "text/plain; version=0.0.4; charset=utf-8"
    (text (generate_latest
             (Prometheus.mkRegistry
                (REQUEST_COUNT w + N.of_nat (entries reqs))%N
                (REQUEST_LATENCY w ++
                 latencies (wall_clock w) (clock_reads w) (entries reqs))))).
Proof. by rewrite serve_world. Qed.

(** X11. Every body [predict_iris] can send passes the schema: the four
    ranges it draws from lie above zero. *)
Theorem generated_body_is_valid sl sw pl pw :
  Locust.drawn (Locust.predict_iris sl sw pl pw) = true ->
  IrisInput_validate (body_of sl sw pl pw) = inr (mkIrisInput sl sw pl pw).
Proof.
  intros Hd.
  destruct (drawn_members_positive _ _ _ _ Hd) as (Ha & Hb & Hc & Hd').
  destruct (body_of_lookup sl sw pl pw) as (La & Lb & Lc & Ld).
  by apply IrisInput_validate_members.
Qed.

(** X12. A session of the load generator is never answered 422: each of
    its responses is 200 or 400, and the request counter and the histogram
    grow by exactly the number of [predict_iris] tasks in it. *)
Theorem session_is_never_rejected tasks w :
  forallb Locust.drawn tasks = true ->
  Forall (fun resp => status_code resp = 200 \/ status_code resp = 400)
    (fst (serve (Locust.session tasks) w)) /\
  REQUEST_COUNT (snd (serve (Locust.session tasks) w)) =
    (REQUEST_COUNT w + N.of_nat (length (List.filter Locust.is_predict_iris tasks)))%N /\
  Prometheus.count (REQUEST_LATENCY (snd (serve (Locust.session tasks) w))) =
    Prometheus.count (REQUEST_LATENCY w) +
    length (List.filter Locust.is_predict_iris tasks).
Proof.
  intros Hd. split; [|split].
  - apply serve_Forall. intros req Hin w'.
    destruct Hin as [<- | Hin]; [by left|].
    apply in_map_iff in Hin as (t & <- & Ht).
    pose proof (proj1 (forallb_forall _ _) Hd t Ht) as Hdt.
    destruct t as [sl sw pl pw| |]; [|by left ..].
    pose proof (generated_body_is_valid_aux sl sw pl pw Hdt) as Hv.
    cbn [Locust.request]. rewrite (app_predict_valid generate_latest _ _ w' Hv).
    cbn [fst]. destruct (Model.first_label _ _); simpl; auto.
  - by rewrite serve_world, (drawn_entries _ Hd).
  - rewrite serve_world, (drawn_entries _ Hd). simpl. unfold Prometheus.count.
    by rewrite length_app, latencies_length.
Qed.

(** X13. [predict_iris] reports a failure exactly when the estimator raised
    on the row it sent, and the message is then [Status code: 400]. *)
Theorem report_fails_iff_estimator_raised sl sw pl pw w :
  Locust.drawn (Locust.predict_iris sl sw pl pw) = true ->
  Locust.report (fst (app (Locust.request (Locust.predict_iris sl sw pl pw)) w)) =
    match Model.first_label (model w) [[sl; sw; pl; pw]] with
    | Return _ => Locust.success
    | Raise _ => Locust.failure "Status code: 400"
    end.
Proof.
  intros Hd. pose proof (generated_body_is_valid_aux sl sw pl pw Hd) as Hv.
  cbn [Locust.request]. rewrite (app_predict_valid generate_latest _ _ w Hv).
  cbn [fst]. unfold features. cbn [sepal_length sepal_width petal_length petal_width].
  destruct (Model.first_label _ _); reflexivity.
Qed.

End Behaviour.

(** ** These statements at concrete requests *)

Lemma accepted_body_reaches_estimator_witness :
  annotated_body !! "sepal_length" = Some 5.1%float /\
  annotated_body !! "sepal_width" = Some 3.5%float /\
  annotated_body !! "petal_length" = Some 1.4%float /\
  annotated_body !! "petal_width" = Some 0.2%float /\
  (0 <? 5.1)%float = true /\ (0 <? 3.5)%float = true /\
  (0 <? 1.4)%float = true /\ (0 <? 0.2)%float = true /\
  IrisInput_validate annotated_body = inr setosa_input /\
  fst (app no_exposition (POST_predict annotated_body) (world_of iris_tree)) =
    JSONResponse 200 (JObject [("prediction", JInt 0)]).
Proof.
  do 8 (split; [reflexivity|]).
  apply (accepted_body_reaches_estimator no_exposition annotated_body
           5.1%float 3.5%float 1.4%float 0.2%float (world_of iris_tree));
    reflexivity.
Defined.

Lemma only_declared_members_matter_witness :
  (forall name, name ∈ field_names -> annotated_body !! name = setosa_body !! name) /\
  enters_predict (POST_predict annotated_body) = enters_predict (POST_predict setosa_body) /\
  snd (app no_exposition (POST_predict annotated_body) (world_of iris_tree)) =
  snd (app no_exposition (POST_predict setosa_body) (world_of iris_tree)) /\
  (enters_predict (POST_predict annotated_body) = true ->
   app no_exposition (POST_predict annotated_body) (world_of iris_tree) =
   app no_exposition (POST_predict setosa_body) (world_of iris_tree)).
Proof.
  assert (H : forall name, name ∈ field_names ->
                annotated_body !! name = setosa_body !! name).
  { intros name Hin. unfold field_names in Hin.
    repeat (apply elem_of_cons in Hin as [-> | Hin]; [reflexivity|]).
    by apply elem_of_nil in Hin. }
  split; [exact H|].
  exact (only_declared_members_matter no_exposition annotated_body setosa_body
           (world_of iris_tree) H).
Defined.

Lemma rejected_finite_body_is_422_witness :
  "sepal_length" ∈ field_names /\
  (negative_body !! "sepal_length" = None \/
   exists v, negative_body !! "sepal_length" = Some v /\ (v <=? 0)%float = true) /\
  body_compliant negative_body = true /\
  status_code
    (fst (app no_exposition (POST_predict negative_body) (world_of iris_tree))) = 422 /\
  snd (app no_exposition (POST_predict negative_body) (world_of iris_tree)) =
    world_of iris_tree /\
  REQUEST_COUNT
    (snd (app no_exposition (POST_predict negative_body) (world_of iris_tree))) = 41%N /\
  REQUEST_LATENCY
    (snd (app no_exposition (POST_predict negative_body) (world_of iris_tree))) =
    [0.5%float].
Proof.
  assert (Hin : "sepal_length" ∈ field_names) by apply list_elem_of_here.
  assert (Hbad : negative_body !! "sepal_length" = None \/
                 exists v, negative_body !! "sepal_length" = Some v /\
                           (v <=? 0)%float = true).
  { right. exists (-1)%float. split; reflexivity. }
  split; [exact Hin|]. split; [exact Hbad|]. split; [reflexivity|].
  exact (rejected_finite_body_is_422 no_exposition negative_body
           "sepal_length" (world_of iris_tree) Hin Hbad eq_refl).
Defined.

(** A member the schema does not declare can turn the 422 of a rejected
    body into a 500: the entry for the missing member echoes the body. *)
Example undeclared_infinity_is_500 :
  status_code (fst (app no_exposition (POST_predict partial_body) (world_of iris_tree))) = 422 /\
  status_code
    (fst (app no_exposition (POST_predict partial_body_with_infinity) (world_of iris_tree))) =
    500.
Proof. split; reflexivity. Qed.

Lemma response_ignores_metrics_and_clock_witness :
  model (world_of iris_tree) =
    model (snd (app no_exposition (POST_predict setosa_body) (world_of iris_tree))) /\
  POST_predict setosa_body <> GET_metrics /\
  fst (app no_exposition (POST_predict setosa_body) (world_of iris_tree)) =
  fst (app no_exposition (POST_predict setosa_body)
         (snd (app no_exposition (POST_predict setosa_body) (world_of iris_tree)))).
Proof.
  split; [reflexivity|]. split; [discriminate|].
  apply (response_ignores_metrics_and_clock no_exposition (POST_predict setosa_body)
           (world_of iris_tree)
           (snd (app no_exposition (POST_predict setosa_body) (world_of iris_tree))));
    [reflexivity | discriminate].
Defined.

Lemma generated_body_is_valid_witness :
  Locust.drawn (Locust.predict_iris 6.7 3.0 5.2 2.3) = true /\
  IrisInput_validate (body_of 6.7 3.0 5.2 2.3) = inr (mkIrisInput 6.7 3.0 5.2 2.3).
Proof.
  split; [reflexivity|].
  apply (generated_body_is_valid 6.7 3.0 5.2 2.3). reflexivity.
Defined.

Lemma session_is_never_rejected_witness :
  forallb Locust.drawn busy_tasks = true /\
  Forall (fun resp => status_code resp = 200 \/ status_code resp = 400)
    (fst (serve no_exposition (Locust.session busy_tasks) (world_of named_tree))) /\
  REQUEST_COUNT (snd (serve no_exposition (Locust.session busy_tasks) (world_of named_tree))) =
    43%N /\
  Prometheus.count
    (REQUEST_LATENCY
       (snd (serve no_exposition (Locust.session busy_tasks) (world_of named_tree)))) = 3.
Proof.
  split; [reflexivity|].
  apply (session_is_never_rejected no_exposition busy_tasks (world_of named_tree)).
  reflexivity.
Defined.

Lemma report_fails_iff_estimator_raised_witness :
  Locust.drawn (Locust.predict_iris 6.7 3.0 5.2 2.3) = true /\
  Locust.report
    (fst (app no_exposition (Locust.request (Locust.predict_iris 6.7 3.0 5.2 2.3))
            (world_of named_tree))) =
  Locust.failure "Status code: 400".
Proof.
  split; [reflexivity|].
  apply (report_fails_iff_estimator_raised no_exposition 6.7 3.0 5.2 2.3
           (world_of named_tree)).
  reflexivity.
Defined.
